(** * Lead segment creation from the Lead list view

    A shallow embedding of [crm_override/public/js/lead_list.js]: the
    list-view settings of the [Lead] doctype, whose [onload] hook adds the
    "Create Segment" entry to the actions menu.

    The script is event driven.  Its three functions (the menu handler, the
    prompt's submit callback and the remote call's response callback) are
    embedded as trees of the host framework's operations, and a small model
    of the host (list view, open dialogs, calls in flight) runs them. *)

From Stdlib Require Import String Ascii List ZArith Bool Lia.
From Stdlib Require Import DecimalString.
Import ListNotations.
Open Scope string_scope.

Set Warnings "-register-all".

(** ** JavaScript values *)

(** The values the script handles.  Numbers are the integer-valued ones
    (a length, the flag [reqd: 1]), [VNum n] being the Number nearest to
    [n]; strings are sequences of 8-bit characters; an object is the list
    of its own properties, read by first match. *)
Inductive value : Type :=
| VUndefined
| VNull
| VBool (b : bool)
| VNum (n : Z)
| VStr (s : string)
| VArr (items : list value)
| VObj (props : list (string * value)).

(** The script's only run-time failure: reading a property of [undefined]
    or [null]. *)
Inductive exn : Type :=
| TypeError.

Inductive result (A : Type) : Type :=
| Ok (a : A)
| Err (e : exn).
Arguments Ok {A} a.
Arguments Err {A} e.

Definition bind {A B : Type} (r : result A) (f : A -> result B) : result B :=
  match r with
  | Ok a => f a
  | Err e => Err e
  end.

Notation "x <- e ;; k" := (bind e (fun x => k))
  (at level 61, e at next level, right associativity).

(** [arr.map(f)] for an [f] that may throw: left to right, stopping at the
    first exception. *)
Fixpoint mapM {A B : Type} (f : A -> result B) (l : list A) : result (list B) :=
  match l with
  | [] => Ok []
  | a :: l' => b <- f a ;; bs <- mapM f l' ;; Ok (b :: bs)
  end.

(** [ToBoolean]. *)
Definition truthy (v : value) : bool :=
  match v with
  | VUndefined | VNull => false
  | VBool b => b
  | VNum n => negb (n =? 0)%Z
  | VStr s => negb (s =? "")
  | VArr _ | VObj _ => true
  end.

Fixpoint lookup (props : list (string * value)) (key : string) : value :=
  match props with
  | [] => VUndefined
  | (k, v) :: rest => if k =? key then v else lookup rest key
  end.

(** [v.key] for a named property.  The script reads [length] and plain
    names only, so array indices are not modelled as keys. *)
Definition get_prop (v : value) (key : string) : result value :=
  match v with
  | VUndefined | VNull => Err TypeError
  | VObj props => Ok (lookup props key)
  | VArr items =>
      Ok (if key =? "length" then VNum (Z.of_nat (List.length items)) else VUndefined)
  | VStr s =>
      Ok (if key =? "length" then VNum (Z.of_nat (String.length s)) else VUndefined)
  | VBool _ | VNum _ => Ok VUndefined
  end.

Definition join (sep : string) (l : list string) : string :=
  match l with
  | [] => ""
  | s :: rest => s ++ fold_right (fun t acc => sep ++ t ++ acc) "" rest
  end.

(** ** Numbers as text *)

(** [VNum n] stands for the Number nearest to the integer [n]; the
    definitions below print it as [Number::toString] does: the shortest
    decimal that denotes that Number, written out in full up to 21 digits
    and with an exponent beyond. *)

Definition decimal (n : Z) : string := NilZero.string_of_int (Z.to_int n).

(** The Number nearest to the integer [p > 0] (round to nearest, ties to
    even, 53 bits of precision); [None] stands for [Infinity]. *)
Definition nearest_double (p : Z) : option Z :=
  let bits := (Z.log2 p + 1)%Z in
  if (bits <=? 53)%Z then Some p
  else
    let shift := (bits - 53)%Z in
    let q := Z.shiftr p shift in
    let low := Z.land p (Z.ones shift) in
    let half := Z.shiftl 1 (shift - 1) in
    let q' := if ((half <? low) || ((low =? half) && Z.odd q))%Z
              then (q + 1)%Z else q in
    let x := Z.shiftl q' shift in
    if (Z.shiftl 1 1024 <=? x)%Z then None else Some x.

Definition rounds_to (x v : Z) : bool :=
  match nearest_double v with
  | Some y => (y =? x)%Z
  | None => false
  end.

(** The decimals [s * 10^(n - k)] with [k] digits in [s] that denote the
    Number [x], for [n] the number of digits of [x] or one more. *)
Definition candidates (x nd k : Z) : list (Z * Z) :=
  flat_map (fun n =>
              let m := (n - k)%Z in
              let s := (x / 10 ^ m)%Z in
              filter (fun c => ((10 ^ (k - 1) <=? fst c) && (fst c <? 10 ^ k))%Z
                               && rounds_to x (fst c * 10 ^ m))
                     [(s, n); ((s + 1)%Z, n)])
           [nd; (nd + 1)%Z].

(** Of two candidates the one closer to [x]; the even one when they are as
    close. *)
Definition closer (x k : Z) (c d : Z * Z) : Z * Z :=
  let dist := fun e => Z.abs (fst e * 10 ^ (snd e - k) - x) in
  if (dist c <? dist d)%Z then c
  else if (dist d <? dist c)%Z then d
  else if Z.even (fst c) then c else d.

Definition shortest (x : Z) : Z * Z * Z :=
  let nd := Z.of_nat (String.length (decimal x)) in
  let pick := fun k =>
                match candidates x nd k with
                | [] => None
                | c :: cs => Some (fold_left (closer x k) cs c, k)
                end in
  match flat_map (fun k => match pick (Z.of_nat k) with
                           | Some r => [r]
                           | None => []
                           end) (seq 1 17) with
  | (s, n, k) :: _ => (s, n, k)
  | [] => (x, nd, nd)
  end.

Fixpoint zeros (n : nat) : string :=
  match n with
  | O => ""
  | S n' => String "0" (zeros n')
  end.

(** [Number::toString] for the Number nearest to the integer [n]. *)
Definition number_to_string (n : Z) : string :=
  if (n =? 0)%Z then "0"
  else
    (if (n <? 0)%Z then "-" else "")
    ++ match nearest_double (Z.abs n) with
       | None => "Infinity"
       | Some x =>
           let '(s, e, k) := shortest x in
           if (e <=? 21)%Z then decimal s ++ zeros (Z.to_nat (e - k))
           else match decimal s with
                | String d "" => String d ("e+" ++ decimal (e - 1))
                | String d rest => String d ("." ++ rest ++ "e+" ++ decimal (e - 1))
                | "" => ""
                end
       end.

(** [String(v)], the text a value becomes when it is put into a string. *)
Fixpoint to_string (v : value) : string :=
  match v with
  | VUndefined => "undefined"
  | VNull => "null"
  | VBool true => "true"
  | VBool false => "false"
  | VNum n => number_to_string n
  | VStr s => s
  | VArr items =>
      join "," (map (fun x => match x with
                              | VUndefined | VNull => ""
                              | _ => to_string x
                              end) items)
  | VObj _ => "[object Object]"
  end.

(** ** The host's text helper [__] *)

Definition is_digit (c : ascii) : bool :=
  let n := nat_of_ascii c in ((48 <=? n) && (n <=? 57))%nat.

Definition index_of_digits (d : string) : nat :=
  fold_left (fun acc c => (10 * acc + (nat_of_ascii c - 48))%nat)
            (list_ascii_of_string d) 0.

(** The text that stands for the placeholder [{d}]: the [d]-th replacement
    when there is one that is not [undefined], the placeholder itself
    otherwise. *)
Definition fill (replace : list value) (d : string) : string :=
  match nth_error replace (index_of_digits d) with
  | Some VUndefined | None => "{" ++ d ++ "}"
  | Some v => to_string v
  end.

(** One pass over the text.  [pending] holds the digits read since an
    opening brace, if the scan is inside a candidate placeholder. *)
Fixpoint scan (replace : list value) (pending : option string) (s : string) : string :=
  match s with
  | EmptyString =>
      match pending with
      | None => ""
      | Some d => "{" ++ d
      end
  | String c s' =>
      match pending with
      | None =>
          if (c =? "{")%char then scan replace (Some "") s'
          else String c (scan replace None s')
      | Some d =>
          if is_digit c then scan replace (Some (d ++ String c "")) s'
          else if ((c =? "}")%char && negb (d =? "")) then
            fill replace d ++ scan replace None s'
          else if (c =? "{")%char then "{" ++ d ++ scan replace (Some "") s'
          else "{" ++ d ++ String c (scan replace None s')
      end
  end.

Definition format (txt : string) (replace : list value) : string :=
  scan replace None txt.

(** Modelled from the spec: [__] belongs to the host framework, not to this
    repository.  The spec shows the interface texts as the script writes
    them and the success notice with its [{0}] filled in by the segment
    name, so [__] here is the untranslated helper: it returns its text,
    with the numbered placeholders replaced when replacements are given. *)
Definition __ (txt : string) (replace : option (list value)) : string :=
  match replace with
  | None => txt
  | Some args => format txt args
  end.

(** ** Handlers as trees of host operations *)

(** What a handler of the script does, step by step: each constructor is one
    call into the host, with the rest of the handler after it.  Functions
    passed to the host (a menu handler, a callback) are part of the call. *)
Inductive prog : Type :=
| Return
| Throw (e : exn)
| AddActionsMenuItem (label : string) (handler : prog) (k : prog)
| GetCheckedItems (k : list value -> prog)
| Msgprint (msg : value) (k : prog)
| Prompt (fields : list value) (callback : value -> prog)
         (title primary_label : string) (k : prog)
| Call (method : string) (args : value) (callback : value -> prog) (k : prog)
| Refresh (k : prog).

(** An expression that may throw, followed by the rest of the handler. *)
Definition eval {A : Type} (e : result A) (k : A -> prog) : prog :=
  match e with
  | Ok a => k a
  | Err x => Throw x
  end.

Notation "'let!' x ':=' e 'in' k" := (eval e (fun x => k))
  (at level 10, x name, e at level 100, k at level 200).

(** ** The script *)

Definition create_lead_segment : string :=
  "crm_override.crm_override.api.create_lead_segment".

(** The argument of [frappe.msgprint] on success (lines 32 to 36). *)
Definition success_notice (segmentname : value) : value :=
  VObj [("title", VStr (__ "Success" None));
        ("indicator", VStr "green");
        ("message",
         VStr (__ "Lead Segment {0} created successfully" (Some [segmentname])))].

(** [r.message.segmentname]. *)
Definition message_segmentname (r : value) : result value :=
  message <- get_prop r "message" ;; get_prop message "segmentname".

(** The response callback of the remote call (lines 30 to 40). *)
Definition callback (r : value) : prog :=
  let! exc := get_prop r "exc" in
  if negb (truthy exc) then
    let! segmentname := message_segmentname r in
    Msgprint (success_notice segmentname)
      (* Optionally, refresh the list to show any updates *)
      (Refresh Return)
  else Return.

(** The [args] object of the remote call (lines 25 to 29), its properties
    evaluated in the order they are written. *)
Definition call_args (selected : list value) (values : value) : result value :=
  segmentname <- get_prop values "segmentname" ;;
  lead_names <- mapM (fun lead => get_prop lead "name") selected ;;
  description <- get_prop values "description" ;;
  Ok (VObj [("segmentname", segmentname);
            ("lead_names", VArr lead_names);
            ("description", description)]).

(** The submit callback of the prompt (lines 22 to 42); [selected] is the
    constant of the enclosing handler. *)
Definition on_submit (selected : list value) (values : value) : prog :=
  let! args := call_args selected values in
  Call create_lead_segment args callback Return.

Definition prompt_fields : list value :=
  [ VObj [("label", VStr (__ "Segment Name" None));
          ("fieldname", VStr "segmentname");
          ("fieldtype", VStr "Data");
          ("reqd", VNum 1)];
    VObj [("label", VStr (__ "Description" None));
          ("fieldname", VStr "description");
          ("fieldtype", VStr "Small Text")] ].

(** The handler of the menu entry (lines 3 to 43). *)
Definition create_segment : prog :=
  GetCheckedItems (fun selected =>
    let! len := get_prop (VArr selected) "length" in
    if negb (truthy len) then
      Msgprint (VStr (__ "Please select at least one lead." None)) Return
    else
      Prompt prompt_fields (on_submit selected)
             (__ "Create Lead Segment" None) (__ "Create" None) Return).

(** [frappe.listview_settings['Lead'].onload]. *)
Definition onload : prog :=
  AddActionsMenuItem (__ "Create Segment" None) create_segment Return.

(** ** The host *)

(** The list view: the rows whose boxes are checked, in the order the view
    shows them, and how many times the view was reloaded. *)
Record listview : Type := {
  checked_items : list value;
  refreshes : nat
}.

Record dialog : Type := {
  dlg_fields : list value;
  dlg_callback : value -> prog;
  dlg_title : string;
  dlg_primary : string
}.

(** The page: its list view, the entries of its actions menu, the prompts
    that are open (the latest first) and the callbacks of the remote calls
    that have not been answered yet (the oldest first). *)
Record host : Type := {
  lv : listview;
  menu : list (string * prog);
  dialogs : list dialog;
  inflight : list (value -> prog)
}.

(** What the page shows or sends. *)
Inductive event : Type :=
| EvMsgprint (msg : value)
| EvPrompt (fields : list value) (title primary_label : string)
| EvCall (method : string) (args : value)
| EvRefresh
| EvRejected
| EvError (e : exn).

Definition add_menu_item (label : string) (handler : prog) (h : host) : host :=
  {| lv := lv h; menu := (menu h ++ [(label, handler)])%list;
     dialogs := dialogs h; inflight := inflight h |}.

Definition open_dialog (d : dialog) (h : host) : host :=
  {| lv := lv h; menu := menu h; dialogs := d :: dialogs h;
     inflight := inflight h |}.

Definition send (cb : value -> prog) (h : host) : host :=
  {| lv := lv h; menu := menu h; dialogs := dialogs h;
     inflight := (inflight h ++ [cb])%list |}.

(** [listview.refresh()]: the view is loaded again.  What the reload does
    to the check boxes is the host's business ([Check] below). *)
Definition reload (h : host) : host :=
  {| lv := {| checked_items := checked_items (lv h);
              refreshes := S (refreshes (lv h)) |};
     menu := menu h; dialogs := dialogs h; inflight := inflight h |}.

Definition emit (ev : event) (r : host * list event) : host * list event :=
  (fst r, ev :: snd r).

(** Runs a handler to its end.  An uncaught exception ends it there. *)
Fixpoint exec (p : prog) (h : host) : host * list event :=
  match p with
  | Return => (h, [])
  | Throw e => (h, [EvError e])
  | AddActionsMenuItem label handler k => exec k (add_menu_item label handler h)
  | GetCheckedItems k => exec (k (checked_items (lv h))) h
  | Msgprint msg k => emit (EvMsgprint msg) (exec k h)
  | Prompt fields cb title primary k =>
      emit (EvPrompt fields title primary)
           (exec k (open_dialog {| dlg_fields := fields; dlg_callback := cb;
                                   dlg_title := title; dlg_primary := primary |} h))
  | Call method args cb k => emit (EvCall method args) (exec k (send cb h))
  | Refresh k => emit EvRefresh (exec k (reload h))
  end.

(** What happens to the page from outside the script. *)
Inductive input : Type :=
| Click (label : string)
| Check (items : list value)
| Submit (form : list (string * value))
| Respond (n : nat) (r : list (string * value)).

Definition blank (v : value) : bool :=
  match v with
  | VUndefined | VNull => true
  | VStr s => s =? ""
  | _ => false
  end.

Definition missing (form : list (string * value)) (df : value) : bool :=
  match get_prop df "reqd", get_prop df "fieldname" with
  | Ok reqd, Ok (VStr fieldname) => truthy reqd && blank (lookup form fieldname)
  | _, _ => false
  end.

(** Modelled from the spec: the form layer of the prompt belongs to the host
    framework.  A field declared required must not be left blank; a
    submission that leaves one blank is rejected before the submit callback
    runs. *)
Definition validate (fields : list value) (form : list (string * value)) : bool :=
  forallb (fun df => negb (missing form df)) fields.

Fixpoint remove_nth {A : Type} (n : nat) (l : list A) : list A :=
  match n, l with
  | _, [] => []
  | O, _ :: l' => l'
  | S n', a :: l' => a :: remove_nth n' l'
  end.

Definition set_checked (items : list value) (h : host) : host :=
  {| lv := {| checked_items := items; refreshes := refreshes (lv h) |};
     menu := menu h; dialogs := dialogs h; inflight := inflight h |}.

Definition close_dialog (h : host) : host :=
  {| lv := lv h; menu := menu h; dialogs := tl (dialogs h);
     inflight := inflight h |}.

Definition answered (n : nat) (h : host) : host :=
  {| lv := lv h; menu := menu h; dialogs := dialogs h;
     inflight := remove_nth n (inflight h) |}.

(** One outside event.  [Click] picks a menu entry; [Check] changes the
    checked rows; [Submit] presses the primary button of the latest prompt
    with the form filled as [form]; [Respond] delivers the response [r] of
    the [n]-th remote call in flight to its callback. *)
Definition step (h : host) (i : input) : host * list event :=
  match i with
  | Click label =>
      match find (fun e => fst e =? label) (menu h) with
      | Some (_, handler) => exec handler h
      | None => (h, [])
      end
  | Check items => (set_checked items h, [])
  | Submit form =>
      match dialogs h with
      | [] => (h, [])
      | d :: rest =>
          if validate (dlg_fields d) form then
            exec (dlg_callback d (VObj form)) (close_dialog h)
          else (h, [EvRejected])
      end
  | Respond n r =>
      match nth_error (inflight h) n with
      | Some cb =>
          exec (cb (VObj r)) (answered n h)
      | None => (h, [])
      end
  end.

Fixpoint run (h : host) (ins : list input) : host * list event :=
  match ins with
  | [] => (h, [])
  | i :: rest =>
      let (h1, evs1) := step h i in
      let (h2, evs2) := run h1 rest in
      (h2, (evs1 ++ evs2)%list)
  end.

(** The page once the list view [v] has loaded and [onload] has run. *)
Definition boot (v : listview) : host :=
  fst (exec onload {| lv := v; menu := []; dialogs := []; inflight := [] |}).

(** The page after the outside events [ins]. *)
Definition session (v : listview) (ins : list input) : host :=
  fst (run (boot v) ins).

(** ** Reading what a handler did *)

Definition calls (evs : list event) : list (string * value) :=
  flat_map (fun ev => match ev with
                      | EvCall method args => [(method, args)]
                      | _ => []
                      end) evs.

Definition notices (evs : list event) : list value :=
  flat_map (fun ev => match ev with
                      | EvMsgprint msg => [msg]
                      | _ => []
                      end) evs.

Definition refreshed (evs : list event) : bool :=
  existsb (fun ev => match ev with EvRefresh => true | _ => false end) evs.

(** The [name] of a row of the list view. *)
Definition name_of (lead : value) : value :=
  match lead with
  | VObj props => lookup props "name"
  | _ => VUndefined
  end.

Definition nullish (v : value) : bool :=
  match v with
  | VUndefined | VNull => true
  | _ => false
  end.

(** [includes s t]: the text [s] occurs in [t]. *)
Definition includes (s t : string) : Prop :=
  exists pre post, t = pre ++ s ++ post.

Fixpoint includesb (s t : string) : bool :=
  String.prefix s t
  || match t with
     | EmptyString => false
     | String _ t' => includesb s t'
     end.


(** ** The pages the script can reach *)

(** The prompt the menu handler opens for the selection [selected]. *)
Definition create_segment_dialog (selected : list value) : dialog :=
  {| dlg_fields := prompt_fields; dlg_callback := on_submit selected;
     dlg_title := "Create Lead Segment"; dlg_primary := "Create" |}.

Definition opened_by_handler (d : dialog) : Prop :=
  exists selected, selected <> [] /\ d = create_segment_dialog selected.

(** What holds of the page at any time: the menu has the script's one
    entry, every open prompt was opened by its handler for a selection that
    was not empty, and every call in flight waits for [callback]. *)
Record page_ok (h : host) : Prop := {
  ok_menu : menu h = [("Create Segment", create_segment)];
  ok_dialogs : Forall opened_by_handler (dialogs h);
  ok_inflight : Forall (fun cb => cb = callback) (inflight h)
}.

(** [h'] differs from [h] in its list view at most. *)
Definition same_page (h h' : host) : Prop :=
  menu h' = menu h /\ dialogs h' = dialogs h /\ inflight h' = inflight h.

(** Sample data, after the README's test script. *)
Definition lead1 : value :=
  VObj [("name", VStr "CRM-LEAD-2025-00196"); ("status", VStr "Open")].
Definition lead2 : value :=
  VObj [("name", VStr "CRM-LEAD-2025-00197")].
Definition two_checked : listview :=
  {| checked_items := [lead1; lead2]; refreshes := 0 |}.
Definition none_checked : listview :=
  {| checked_items := []; refreshes := 0 |}.
Definition seg1_form : list (string * value) :=
  [("segmentname", VStr "seg1"); ("description", VStr "Test Segment")].

(** A response that carries the segment's name under [name] only, as the
    README's test script reads it. *)
Definition name_only_response : list (string * value) :=
  [("message", VObj [("name", VStr "seg1")])].
Definition seg1_response : list (string * value) :=
  [("message", VObj [("name", VStr "seg1"); ("segmentname", VStr "seg1")])].
Definition failed_response : list (string * value) :=
  [("exc", VStr "Traceback: DuplicateEntryError")].

(** The [lead_names] arguments of the remote calls among [evs]. *)
Definition lead_names_sent (evs : list event) : list (result value) :=
  map (fun c => get_prop (snd c) "lead_names") (calls evs).

(** The [description] arguments of the remote calls among [evs]. *)
Definition descriptions_sent (evs : list event) : list (result value) :=
  map (fun c => get_prop (snd c) "description") (calls evs).

(** ** Counting over a session *)

(** A remote call as the script issues it: the fixed method, and an [args]
    object of three properties whose [lead_names] is an array that is not
    empty. *)
Definition well_formed_call (c : string * value) : Prop :=
  fst c = create_lead_segment
  /\ exists segmentname lead_names description,
       snd c = VObj [("segmentname", segmentname);
                     ("lead_names", VArr lead_names);
                     ("description", description)]
       /\ lead_names <> [].

Definition submits (ins : list input) : nat :=
  List.length (filter (fun i => match i with Submit _ => true | _ => false end) ins).

Definition responses (ins : list input) : nat :=
  List.length (filter (fun i => match i with Respond _ _ => true | _ => false end) ins).

Definition refresh_count (evs : list event) : nat :=
  List.length (filter (fun ev => match ev with EvRefresh => true | _ => false end) evs).

(** A list view with a row that is [null] among its checked rows. *)
Definition null_row_checked : listview :=
  {| checked_items := [lead1; VNull]; refreshes := 0 |}.

(** * Properties *)

(** ** Texts *)

Lemma prefix_split (s t : string) :
  String.prefix s t = true <-> exists post, t = s ++ post.
Proof.
  revert t; induction s as [|c s IH]; intros t; simpl.
  - split; [intros _; now exists t | intros _; now destruct t].
  - destruct t as [|d t].
    + split; [discriminate | intros [post H]; discriminate].
    + simpl. destruct (ascii_dec c d) as [Hcd|Hcd].
      * split.
        -- intros H. apply IH in H as [post H]. exists post. now rewrite Hcd, H.
        -- intros [post H]. apply IH. exists post. now injection H.
      * split; [discriminate | intros [post H]; injection H; congruence].
Qed.

Lemma includesb_spec (s t : string) : includesb s t = true <-> includes s t.
Proof.
  unfold includes. induction t as [|c t IH].
  - cbn [includesb]. rewrite orb_false_r, prefix_split. split.
    + intros [post H]. now exists "", post.
    + intros [[|d pre] [post H]]; [now exists post | discriminate].
  - cbn [includesb]. rewrite orb_true_iff, prefix_split, IH. split.
    + intros [[post H]|[pre [post H]]].
      * now exists "", post.
      * exists (String c pre), post. simpl. now rewrite H.
    + intros [[|d pre] [post H]].
      * left. now exists post.
      * right. exists pre, post. simpl in H. now injection H.
Qed.

Lemma success_text (name : string) :
  __ "Lead Segment {0} created successfully" (Some [VStr name])
  = "Lead Segment " ++ name ++ " created successfully".
Proof. reflexivity. Qed.

(** Numbers in a text: in full up to 21 digits, the shortest digits that
    denote the Number, an exponent beyond. *)
Example numbers_as_text :
  map to_string [VNum 0; VNum (-42); VNum (2 ^ 60); VNum (10 ^ 21);
                 VNum 123456789012345678901234567890]
  = ["0"; "-42"; "1152921504606847000"; "1e+21"; "1.2345678901234568e+29"].
Proof. vm_compute. reflexivity. Qed.

Lemma success_text_unfilled :
  __ "Lead Segment {0} created successfully" (Some [VUndefined])
  = "Lead Segment {0} created successfully".
Proof. reflexivity. Qed.

(** ** Expressions *)

Lemma get_prop_name (lead : value) :
  nullish lead = false -> get_prop lead "name" = Ok (name_of lead).
Proof. destruct lead; simpl; intros H; (discriminate || reflexivity). Qed.

Lemma mapM_names (selected : list value) :
  existsb nullish selected = false ->
  mapM (fun lead => get_prop lead "name") selected = Ok (map name_of selected).
Proof.
  induction selected as [|lead rest IH]; simpl; [reflexivity|].
  intros H. apply orb_false_elim in H as [Hlead Hrest].
  now rewrite (get_prop_name _ Hlead), (IH Hrest).
Qed.

Lemma call_args_rows (selected : list value) (form : list (string * value)) :
  existsb nullish selected = false ->
  call_args selected (VObj form)
  = Ok (VObj [("segmentname", lookup form "segmentname");
              ("lead_names", VArr (map name_of selected));
              ("description", lookup form "description")]).
Proof. intros H. unfold call_args. simpl. now rewrite (mapM_names _ H). Qed.

(** ** The three handlers, run *)

Lemma exec_callback (r : value) (h : host) :
  exec (callback r) h
  = match get_prop r "exc" with
    | Err e => (h, [EvError e])
    | Ok exc =>
        if truthy exc then (h, [])
        else match message_segmentname r with
             | Err e => (h, [EvError e])
             | Ok segmentname =>
                 (reload h, [EvMsgprint (success_notice segmentname); EvRefresh])
             end
    end.
Proof.
  unfold callback. destruct (get_prop r "exc") as [exc|e]; simpl; [|reflexivity].
  destruct (truthy exc); simpl; [reflexivity|].
  now destruct (message_segmentname r).
Qed.

Lemma exec_on_submit (selected : list value) (values : value) (h : host) :
  exec (on_submit selected values) h
  = match call_args selected values with
    | Err e => (h, [EvError e])
    | Ok args => (send callback h, [EvCall create_lead_segment args])
    end.
Proof. unfold on_submit. now destruct (call_args selected values). Qed.

Lemma exec_create_segment (h : host) :
  exec create_segment h
  = match checked_items (lv h) with
    | [] => (h, [EvMsgprint (VStr "Please select at least one lead.")])
    | _ :: _ =>
        (open_dialog (create_segment_dialog (checked_items (lv h))) h,
         [EvPrompt prompt_fields "Create Lead Segment" "Create"])
    end.
Proof.
  unfold create_segment. cbn [exec].
  destruct (checked_items (lv h)) as [|lead rest]; reflexivity.
Qed.

(** ** The invariant of the page *)

Lemma page_ok_boot (v : listview) : page_ok (boot v).
Proof. split; simpl; [reflexivity | constructor | constructor]. Qed.

Lemma Forall_remove_nth {A : Type} (P : A -> Prop) (n : nat) (l : list A) :
  Forall P l -> Forall P (remove_nth n l).
Proof.
  intros H; revert n; induction H as [|a l Ha Hl IH]; intros [|n]; simpl;
    auto using Forall.
Qed.

Lemma page_ok_callback (r : value) (h : host) :
  page_ok h -> page_ok (fst (exec (callback r) h)).
Proof.
  intros [Hm Hd Hi]. rewrite exec_callback.
  destruct (get_prop r "exc") as [exc|e]; [|now split].
  destruct (truthy exc); [now split|].
  destruct (message_segmentname r); now split.
Qed.

Lemma step_click (h : host) (label : string) :
  page_ok h ->
  step h (Click label)
  = if "Create Segment" =? label then exec create_segment h else (h, []).
Proof.
  intros [Hm _ _]. unfold step. rewrite Hm. cbn [find fst].
  now destruct ("Create Segment" =? label).
Qed.

Lemma page_ok_step (h : host) (i : input) :
  page_ok h -> page_ok (fst (step h i)).
Proof.
  intros Hok. pose proof Hok as [Hm Hd Hi].
  destruct i as [label|items|form|n r]; [rewrite (step_click h label Hok)|simpl..].
  - destruct ("Create Segment" =? label); [|exact Hok].
    rewrite exec_create_segment.
    destruct (checked_items (lv h)) as [|lead rest] eqn:Hsel; [exact Hok|].
    split; simpl; auto. constructor; [|exact Hd].
    exists (lead :: rest). split; [discriminate | reflexivity].
  - now split.
  - destruct (dialogs h) as [|d rest] eqn:Hdlg; [exact Hok|].
    destruct (validate (dlg_fields d) form); [|exact Hok].
    inversion Hd as [|d' rest' [selected [_ ->]] Hrest]; subst. simpl.
    rewrite exec_on_submit.
    destruct (call_args selected (VObj form)); split; simpl;
      rewrite ?Hdlg; simpl; auto.
    apply Forall_app. split; [exact Hi | now constructor].
  - destruct (nth_error (inflight h) n) as [cb|] eqn:Hn; [|exact Hok].
    assert (cb = callback) as ->.
    { rewrite Forall_forall in Hi. apply Hi. eapply nth_error_In, Hn. }
    apply page_ok_callback. split; simpl; auto using Forall_remove_nth.
Qed.

Lemma page_ok_run (ins : list input) (h : host) :
  page_ok h -> page_ok (fst (run h ins)).
Proof.
  revert h; induction ins as [|i rest IH]; intros h Hok; simpl; [exact Hok|].
  pose proof (page_ok_step h i Hok) as H1.
  destruct (step h i) as [h1 evs1]. specialize (IH h1 H1).
  now destruct (run h1 rest).
Qed.

Lemma page_ok_session (v : listview) (ins : list input) : page_ok (session v ins).
Proof. apply page_ok_run, page_ok_boot. Qed.

(** ** Sessions *)

Lemma validate_prompt_fields (form : list (string * value)) :
  validate prompt_fields form = negb (blank (lookup form "segmentname")).
Proof. cbn. now rewrite andb_true_r. Qed.

Lemma run_app (a b : list input) (h : host) :
  run h (a ++ b)
  = (fst (run (fst (run h a)) b),
     (snd (run h a) ++ snd (run (fst (run h a)) b))%list).
Proof.
  revert h; induction a as [|i a IH]; intros h; simpl.
  - now destruct (run h b).
  - destruct (step h i) as [h1 evs1]. rewrite IH.
    destruct (run h1 a) as [h2 evs2]. simpl. now rewrite app_assoc.
Qed.

Lemma run_checks (cs : list (list value)) (h : host) :
  same_page h (fst (run h (map Check cs))) /\ snd (run h (map Check cs)) = [].
Proof.
  revert h; induction cs as [|items cs IH]; intros h; simpl.
  - now repeat split.
  - destruct (IH (set_checked items h)) as [[Hm [Hd Hi]] Hevs].
    destruct (run (set_checked items h) (map Check cs)) as [h2 evs2].
    simpl in *. now repeat split.
Qed.

(** Pressing the primary button of a prompt of the script. *)
Lemma step_submit (h : host) (selected : list value) (rest : list dialog)
      (form : list (string * value)) :
  dialogs h = create_segment_dialog selected :: rest ->
  step h (Submit form)
  = if blank (lookup form "segmentname") then (h, [EvRejected])
    else match call_args selected (VObj form) with
         | Err e => (close_dialog h, [EvError e])
         | Ok args =>
             (send callback (close_dialog h), [EvCall create_lead_segment args])
         end.
Proof.
  intros Hd. unfold step. rewrite Hd. cbn [create_segment_dialog dlg_fields dlg_callback].
  rewrite validate_prompt_fields.
  destruct (blank (lookup form "segmentname")); [reflexivity|].
  cbn [negb]. apply exec_on_submit.
Qed.

(** The menu entry is picked with rows checked, the boxes change any
    number of times, then the prompt is submitted: what is sent is decided
    by the rows checked when the entry was picked. *)
Lemma click_then_submit (h : host) (cs : list (list value))
      (form : list (string * value)) :
  page_ok h ->
  checked_items (lv h) <> [] ->
  snd (run h (Click "Create Segment" :: map Check cs ++ [Submit form]))
  = (EvPrompt prompt_fields "Create Lead Segment" "Create"
     :: (if blank (lookup form "segmentname") then [EvRejected]
         else match call_args (checked_items (lv h)) (VObj form) with
              | Err e => [EvError e]
              | Ok args => [EvCall create_lead_segment args]
              end))%list.
Proof.
  intros Hok Hsel. cbn [run]. rewrite (step_click h _ Hok).
  rewrite String.eqb_refl, exec_create_segment.
  destruct (checked_items (lv h)) as [|lead others] eqn:Esel; [congruence|].
  set (h1 := open_dialog _ h). rewrite run_app.
  destruct (run_checks cs h1) as [[_ [Hd _]] Hevs]. rewrite Hevs.
  set (h2 := fst (run h1 (map Check cs))) in *.
  cbn [run fst snd app].
  rewrite (step_submit h2 (lead :: others) (dialogs h) form) by exact Hd.
  destruct (blank (lookup form "segmentname")); [reflexivity|].
  now destruct (call_args (lead :: others) (VObj form)).
Qed.

(** ** The response callback *)

(** C1, as amended.  The callback reads the segment's name from the field
    [segmentname] of the payload: when a response without exception carries
    the name there, the notice displayed reads
    "Lead Segment <name> created successfully", which includes that exact
    name. *)
Theorem success_notice_includes_segmentname
        (r exc message : value) (name : string) (h : host) :
  get_prop r "exc" = Ok exc ->
  truthy exc = false ->
  get_prop r "message" = Ok message ->
  get_prop message "segmentname" = Ok (VStr name) ->
  exists text,
    notices (snd (exec (callback r) h))
    = [VObj [("title", VStr "Success"); ("indicator", VStr "green");
             ("message", VStr text)]]
    /\ text = "Lead Segment " ++ name ++ " created successfully"
    /\ includes name text.
Proof.
  intros Hexc Hfalsy Hmsg Hname.
  exists ("Lead Segment " ++ name ++ " created successfully").
  rewrite exec_callback, Hexc, Hfalsy.
  unfold message_segmentname. rewrite Hmsg. cbn [bind]. rewrite Hname.
  repeat split. now exists "Lead Segment ", " created successfully".
Qed.

Lemma success_notice_includes_segmentname_witness :
  get_prop (VObj seg1_response) "exc" = Ok VUndefined
  /\ truthy VUndefined = false
  /\ exists text,
       notices (snd (exec (callback (VObj seg1_response)) (boot two_checked)))
       = [VObj [("title", VStr "Success"); ("indicator", VStr "green");
                ("message", VStr text)]]
       /\ text = "Lead Segment " ++ "seg1" ++ " created successfully"
       /\ includes "seg1" text.
Proof.
  split; [reflexivity|]. split; [reflexivity|].
  apply (success_notice_includes_segmentname
           (VObj seg1_response) VUndefined
           (VObj [("name", VStr "seg1"); ("segmentname", VStr "seg1")])
           "seg1" (boot two_checked)); reflexivity.
Defined.

(** C1 as the spec words it fails: a response without exception whose
    payload carries the name "seg1" under [name] alone gets the notice
    "Lead Segment {0} created successfully", in which "seg1" does not
    occur. *)
Lemma success_notice_misses_name_field :
  get_prop (VObj name_only_response) "exc" = Ok VUndefined
  /\ truthy VUndefined = false
  /\ (message <- get_prop (VObj name_only_response) "message" ;;
      get_prop message "name") = Ok (VStr "seg1")
  /\ notices (snd (exec (callback (VObj name_only_response)) (boot two_checked)))
     = [VObj [("title", VStr "Success"); ("indicator", VStr "green");
              ("message", VStr "Lead Segment {0} created successfully")]]
  /\ ~ includes "seg1" "Lead Segment {0} created successfully".
Proof.
  repeat split. intros H. apply includesb_spec in H. discriminate H.
Qed.

(** C4.  When the response carries an exception (its [exc] is truthy), the
    callback does nothing: no notice is displayed, the list view is not
    refreshed and the page stays as it was. *)
Theorem error_response_is_silent (r exc : value) (h : host) :
  get_prop r "exc" = Ok exc ->
  truthy exc = true ->
  exec (callback r) h = (h, [])
  /\ notices (snd (exec (callback r) h)) = []
  /\ refreshed (snd (exec (callback r) h)) = false.
Proof.
  intros Hexc Htruthy. rewrite exec_callback, Hexc, Htruthy. now repeat split.
Qed.

Lemma error_response_is_silent_witness :
  get_prop (VObj failed_response) "exc" = Ok (VStr "Traceback: DuplicateEntryError")
  /\ truthy (VStr "Traceback: DuplicateEntryError") = true
  /\ exec (callback (VObj failed_response)) (boot two_checked)
     = (boot two_checked, [])
  /\ notices (snd (exec (callback (VObj failed_response)) (boot two_checked))) = []
  /\ refreshed (snd (exec (callback (VObj failed_response)) (boot two_checked)))
     = false.
Proof.
  split; [reflexivity|]. split; [reflexivity|].
  apply (error_response_is_silent (VObj failed_response)
           (VStr "Traceback: DuplicateEntryError") (boot two_checked)); reflexivity.
Defined.

Lemma refreshed_only_without_exc (r : value) (h : host) :
  refreshed (snd (exec (callback r) h)) = true ->
  exists exc, get_prop r "exc" = Ok exc /\ truthy exc = false.
Proof.
  rewrite exec_callback. destruct (get_prop r "exc") as [exc|e]; [|discriminate].
  destruct (truthy exc) eqn:Hexc; [discriminate|]. intros _. now exists exc.
Qed.

(** C7.  On a successful response (no exception, and a payload in
    [message], as the remote method returns on success) the callback
    displays the confirmation message and then refreshes the list view:
    the notice has the title "Success", the green indicator and the text
    "Lead Segment ... created successfully" around what the payload holds
    as [segmentname].  The refresh is in the success branch only: whenever
    the callback refreshes, the response carried no exception. *)
Theorem success_notice_and_refresh (r exc message : value) (h : host) :
  get_prop r "exc" = Ok exc ->
  truthy exc = false ->
  get_prop r "message" = Ok message ->
  nullish message = false ->
  (exists segmentname,
     get_prop message "segmentname" = Ok segmentname
     /\ exec (callback r) h
        = (reload h,
           [EvMsgprint
              (VObj [("title", VStr "Success");
                     ("indicator", VStr "green");
                     ("message",
                      VStr ("Lead Segment "
                            ++ match segmentname with
                               | VUndefined => "{0}"
                               | _ => to_string segmentname
                               end
                            ++ " created successfully"))]);
            EvRefresh]))
  /\ (forall r' h', refreshed (snd (exec (callback r') h')) = true ->
        exists exc', get_prop r' "exc" = Ok exc' /\ truthy exc' = false).
Proof.
  intros Hexc Hfalsy Hmsg Hpayload. split; [|apply refreshed_only_without_exc].
  rewrite exec_callback, Hexc, Hfalsy. unfold message_segmentname.
  rewrite Hmsg. cbn [bind].
  assert (exists segmentname, get_prop message "segmentname" = Ok segmentname)
    as [segmentname Hseg].
  { destruct message; try discriminate Hpayload; cbn [get_prop]; eauto. }
  exists segmentname. rewrite Hseg. split; [reflexivity|].
  now destruct segmentname.
Qed.

Lemma success_notice_and_refresh_witness :
  get_prop (VObj seg1_response) "exc" = Ok VUndefined
  /\ truthy VUndefined = false
  /\ (exists segmentname,
        get_prop (VObj [("name", VStr "seg1"); ("segmentname", VStr "seg1")])
                 "segmentname" = Ok segmentname
        /\ exec (callback (VObj seg1_response)) (boot two_checked)
           = (reload (boot two_checked),
              [EvMsgprint
                 (VObj [("title", VStr "Success");
                        ("indicator", VStr "green");
                        ("message",
                         VStr ("Lead Segment "
                               ++ match segmentname with
                                  | VUndefined => "{0}"
                                  | _ => to_string segmentname
                                  end
                               ++ " created successfully"))]);
               EvRefresh]))
  /\ (forall r' h', refreshed (snd (exec (callback r') h')) = true ->
        exists exc', get_prop r' "exc" = Ok exc' /\ truthy exc' = false).
Proof.
  split; [reflexivity|]. split; [reflexivity|].
  apply (success_notice_and_refresh
           (VObj seg1_response) VUndefined
           (VObj [("name", VStr "seg1"); ("segmentname", VStr "seg1")])
           (boot two_checked)); reflexivity.
Defined.

(** C8.  The callback reads [r.message.segmentname] without a guard: on a
    response without exception whose [message] is missing or [null] it
    throws a [TypeError] before anything is displayed. *)
Theorem missing_message_throws (r exc message : value) (h : host) :
  get_prop r "exc" = Ok exc ->
  truthy exc = false ->
  get_prop r "message" = Ok message ->
  nullish message = true ->
  callback r = Throw TypeError
  /\ exec (callback r) h = (h, [EvError TypeError]).
Proof.
  intros Hexc Hfalsy Hmsg Hnull.
  assert (callback r = Throw TypeError) as ->; [|now split].
  unfold callback, message_segmentname. rewrite Hexc. cbn [eval].
  rewrite Hfalsy, Hmsg. cbn [negb bind].
  destruct message; try discriminate Hnull; reflexivity.
Qed.

Lemma missing_message_throws_witness :
  get_prop (VObj []) "exc" = Ok VUndefined
  /\ get_prop (VObj []) "message" = Ok VUndefined
  /\ callback (VObj []) = Throw TypeError
  /\ exec (callback (VObj [])) (boot two_checked)
     = (boot two_checked, [EvError TypeError]).
Proof.
  split; [reflexivity|]. split; [reflexivity|].
  apply (missing_message_throws (VObj []) VUndefined VUndefined
                                (boot two_checked)); reflexivity.
Defined.

Lemma null_message_throws :
  callback (VObj [("message", VNull)]) = Throw TypeError.
Proof. reflexivity. Qed.

(** ** The menu handler and the prompt *)

(** C2.  Whatever happened on the page before, when no row is checked the
    "Create Segment" action shows the notice
    "Please select at least one lead." and returns: that notice is all the
    page shows, no prompt is opened and no remote call is issued (the page
    is left as it was). *)
Theorem empty_selection_only_notice (v : listview) (ins : list input) :
  checked_items (lv (session v ins)) = [] ->
  step (session v ins) (Click "Create Segment")
  = (session v ins, [EvMsgprint (VStr "Please select at least one lead.")]).
Proof.
  intros Hsel. rewrite (step_click _ _ (page_ok_session v ins)).
  rewrite String.eqb_refl, exec_create_segment. now rewrite Hsel.
Qed.

Lemma empty_selection_only_notice_witness :
  checked_items (lv (session two_checked [Check []])) = []
  /\ step (session two_checked [Check []]) (Click "Create Segment")
     = (session two_checked [Check []],
        [EvMsgprint (VStr "Please select at least one lead.")]).
Proof.
  split; [reflexivity|].
  apply (empty_selection_only_notice two_checked [Check []]); reflexivity.
Defined.

(** What the page shows and sends when the action is picked with the rows
    [checked_items] checked, none of them [undefined] or [null], and the
    prompt is submitted with a segment name. *)
Lemma submitted_call (v : listview) (ins : list input)
      (cs : list (list value)) (form : list (string * value)) :
  checked_items (lv (session v ins)) <> [] ->
  existsb nullish (checked_items (lv (session v ins))) = false ->
  blank (lookup form "segmentname") = false ->
  snd (run (session v ins)
           (Click "Create Segment" :: map Check cs ++ [Submit form]))
  = [EvPrompt prompt_fields "Create Lead Segment" "Create";
     EvCall create_lead_segment
            (VObj [("segmentname", lookup form "segmentname");
                   ("lead_names",
                    VArr (map name_of (checked_items (lv (session v ins)))));
                   ("description", lookup form "description")])].
Proof.
  intros Hsel Hrows Hname.
  rewrite (click_then_submit _ cs form (page_ok_session v ins) Hsel).
  now rewrite Hname, (call_args_rows _ form Hrows).
Qed.

(** C3.  With a selection that is not empty, the [lead_names] argument of
    the remote call is the sequence of the [name]s of the checked rows, in
    the order of the list view: one element per row, none added, removed or
    merged. *)
Theorem lead_names_are_selected_names
        (v : listview) (ins : list input) (form : list (string * value)) :
  checked_items (lv (session v ins)) <> [] ->
  existsb nullish (checked_items (lv (session v ins))) = false ->
  blank (lookup form "segmentname") = false ->
  lead_names_sent
    (snd (run (session v ins) [Click "Create Segment"; Submit form]))
  = [Ok (VArr (map name_of (checked_items (lv (session v ins)))))].
Proof.
  intros Hsel Hrows Hname.
  change [Click "Create Segment"; Submit form]
    with (Click "Create Segment" :: map Check [] ++ [Submit form]).
  now rewrite (submitted_call v ins [] form Hsel Hrows Hname).
Qed.

Lemma lead_names_are_selected_names_witness :
  checked_items (lv (session two_checked [])) <> []
  /\ lead_names_sent
       (snd (run (session two_checked [])
                 [Click "Create Segment"; Submit seg1_form]))
     = [Ok (VArr [VStr "CRM-LEAD-2025-00196"; VStr "CRM-LEAD-2025-00197"])].
Proof.
  split; [discriminate|].
  apply (lead_names_are_selected_names two_checked [] seg1_form);
    [discriminate | reflexivity | reflexivity].
Defined.

(** C5.  Every accepted submission of the prompt issues one remote call, to
    the fixed method [crm_override.crm_override.api.create_lead_segment],
    with exactly three arguments: [segmentname] (the form's segment name),
    [lead_names] (the list of the lead identifiers) and [description] (the
    form's description, [undefined] when none was entered). *)
Theorem remote_call_contract
        (v : listview) (ins : list input) (form : list (string * value)) :
  checked_items (lv (session v ins)) <> [] ->
  existsb nullish (checked_items (lv (session v ins))) = false ->
  blank (lookup form "segmentname") = false ->
  calls (snd (run (session v ins) [Click "Create Segment"; Submit form]))
  = [("crm_override.crm_override.api.create_lead_segment",
      VObj [("segmentname", lookup form "segmentname");
            ("lead_names",
             VArr (map name_of (checked_items (lv (session v ins)))));
            ("description", lookup form "description")])].
Proof.
  intros Hsel Hrows Hname.
  change [Click "Create Segment"; Submit form]
    with (Click "Create Segment" :: map Check [] ++ [Submit form]).
  now rewrite (submitted_call v ins [] form Hsel Hrows Hname).
Qed.

Lemma remote_call_contract_witness :
  checked_items (lv (session two_checked [])) <> []
  /\ calls (snd (run (session two_checked [])
                     [Click "Create Segment"; Submit seg1_form]))
     = [("crm_override.crm_override.api.create_lead_segment",
         VObj [("segmentname", VStr "seg1");
               ("lead_names",
                VArr [VStr "CRM-LEAD-2025-00196"; VStr "CRM-LEAD-2025-00197"]);
               ("description", VStr "Test Segment")])].
Proof.
  split; [discriminate|].
  apply (remote_call_contract two_checked [] seg1_form);
    [discriminate | reflexivity | reflexivity].
Defined.

(** C10.  The description goes to the remote call as the form holds it,
    unchecked and unchanged: the [description] argument is the form's
    [description] field, which is [undefined] when the field was left
    empty. *)
Theorem description_forwarded_verbatim
        (v : listview) (ins : list input) (form : list (string * value)) :
  checked_items (lv (session v ins)) <> [] ->
  existsb nullish (checked_items (lv (session v ins))) = false ->
  blank (lookup form "segmentname") = false ->
  descriptions_sent
    (snd (run (session v ins) [Click "Create Segment"; Submit form]))
  = [get_prop (VObj form) "description"].
Proof.
  intros Hsel Hrows Hname.
  change [Click "Create Segment"; Submit form]
    with (Click "Create Segment" :: map Check [] ++ [Submit form]).
  now rewrite (submitted_call v ins [] form Hsel Hrows Hname).
Qed.

Lemma description_forwarded_verbatim_witness :
  checked_items (lv (session two_checked [])) <> []
  /\ descriptions_sent
       (snd (run (session two_checked [])
                 [Click "Create Segment"; Submit [("segmentname", VStr "seg1")]]))
     = [Ok VUndefined].
Proof.
  split; [discriminate|].
  apply (description_forwarded_verbatim
           two_checked [] [("segmentname", VStr "seg1")]);
    [discriminate | reflexivity | reflexivity].
Defined.

(** C6.  The prompt declares [segmentname] required, so a submission that
    leaves it blank is rejected by the form layer: the submit callback does
    not run, no remote call is issued and the prompt stays open.  This
    holds of every prompt on the page, whatever happened before. *)
Theorem blank_segmentname_rejected
        (v : listview) (ins : list input) (form : list (string * value)) :
  blank (lookup form "segmentname") = true ->
  step (session v ins) (Submit form)
  = (session v ins,
     match dialogs (session v ins) with
     | [] => []
     | _ :: _ => [EvRejected]
     end).
Proof.
  intros Hblank. destruct (page_ok_session v ins) as [_ Hd _].
  destruct (dialogs (session v ins)) as [|d rest] eqn:Hdlg.
  - unfold step. now rewrite Hdlg.
  - inversion Hd as [|d' rest' [selected [_ Hours]] Hrest]. subst.
    now rewrite (step_submit _ selected rest form Hdlg), Hblank.
Qed.

Lemma blank_segmentname_rejected_witness :
  blank (lookup [("description", VStr "Test Segment")] "segmentname") = true
  /\ step (session two_checked [Click "Create Segment"])
          (Submit [("description", VStr "Test Segment")])
     = (session two_checked [Click "Create Segment"], [EvRejected]).
Proof.
  split; [reflexivity|].
  apply (blank_segmentname_rejected
           two_checked [Click "Create Segment"]
           [("description", VStr "Test Segment")]); reflexivity.
Defined.

(** C9.  The selection is read once, when the action is picked.  Take two
    pages on which the same rows are checked at that moment; let the check
    boxes then change in any way on each, while the prompt is open; submit
    the same form on both.  The [lead_names] sent are the same, and so are
    the remote calls as a whole. *)
Theorem selection_captured_at_click
        (v1 v2 : listview) (ins1 ins2 : list input)
        (cs1 cs2 : list (list value)) (form : list (string * value)) :
  checked_items (lv (session v1 ins1)) = checked_items (lv (session v2 ins2)) ->
  checked_items (lv (session v1 ins1)) <> [] ->
  lead_names_sent
    (snd (run (session v1 ins1)
              (Click "Create Segment" :: map Check cs1 ++ [Submit form])))
  = lead_names_sent
      (snd (run (session v2 ins2)
                (Click "Create Segment" :: map Check cs2 ++ [Submit form])))
  /\ calls
       (snd (run (session v1 ins1)
                 (Click "Create Segment" :: map Check cs1 ++ [Submit form])))
     = calls
         (snd (run (session v2 ins2)
                   (Click "Create Segment" :: map Check cs2 ++ [Submit form]))).
Proof.
  intros Heq Hsel.
  rewrite (click_then_submit _ cs1 form (page_ok_session v1 ins1) Hsel).
  rewrite Heq in Hsel.
  rewrite (click_then_submit _ cs2 form (page_ok_session v2 ins2) Hsel).
  now rewrite Heq.
Qed.

Lemma selection_captured_at_click_witness :
  checked_items (lv (session two_checked []))
  = checked_items
      (lv (session none_checked [Check [lead1]; Check [lead1; lead2]]))
  /\ lead_names_sent
       (snd (run (session two_checked [])
                 (Click "Create Segment"
                  :: map Check [[]; [lead2]] ++ [Submit seg1_form])))
     = lead_names_sent
         (snd (run (session none_checked [Check [lead1]; Check [lead1; lead2]])
                   (Click "Create Segment"
                    :: map Check [[lead1]] ++ [Submit seg1_form]))).
Proof.
  split; [reflexivity|].
  apply (selection_captured_at_click
           two_checked none_checked
           [] [Check [lead1]; Check [lead1; lead2]]
           [[]; [lead2]] [[lead1]] seg1_form);
    [reflexivity | discriminate].
Defined.

(** ** The scenario of the README *)

(** Two leads are checked, the action is picked, the prompt is submitted
    with the name "seg1" and a description, and the server answers with the
    segment it created. *)
Example create_seg1 :
  snd (run (boot two_checked)
           [Click "Create Segment"; Submit seg1_form; Respond 0 seg1_response])
  = [EvPrompt prompt_fields "Create Lead Segment" "Create";
     EvCall "crm_override.crm_override.api.create_lead_segment"
            (VObj [("segmentname", VStr "seg1");
                   ("lead_names",
                    VArr [VStr "CRM-LEAD-2025-00196";
                          VStr "CRM-LEAD-2025-00197"]);
                   ("description", VStr "Test Segment")]);
     EvMsgprint (VObj [("title", VStr "Success"); ("indicator", VStr "green");
                       ("message",
                        VStr "Lead Segment seg1 created successfully")]);
     EvRefresh].
Proof. reflexivity. Qed.

(** * Further properties of the script *)

(** ** What a session sends *)

Lemma calls_app (a b : list event) : calls (a ++ b) = (calls a ++ calls b)%list.
Proof. apply flat_map_app. Qed.

Lemma mapM_length {A B : Type} (f : A -> result B) (l : list A) (bs : list B) :
  mapM f l = Ok bs -> List.length bs = List.length l.
Proof.
  revert bs; induction l as [|a l IH]; simpl; intros bs H.
  - now injection H as <-.
  - destruct (f a) as [b|e]; [|discriminate]. simpl in H.
    destruct (mapM f l) as [bs'|e]; [|discriminate]. simpl in H.
    injection H as <-. simpl. now rewrite (IH bs').
Qed.

Lemma call_args_shape (selected : list value) (values args : value) :
  selected <> [] ->
  call_args selected values = Ok args ->
  exists segmentname lead_names description,
    args = VObj [("segmentname", segmentname);
                 ("lead_names", VArr lead_names);
                 ("description", description)]
    /\ lead_names <> [].
Proof.
  intros Hsel. unfold call_args.
  destruct (get_prop values "segmentname") as [s|e]; [|discriminate]. cbn [bind].
  destruct (mapM _ selected) as [names|e] eqn:Hnames; [|discriminate]. cbn [bind].
  destruct (get_prop values "description") as [d|e]; [|discriminate]. cbn [bind].
  intros H. injection H as <-. exists s, names, d. split; [reflexivity|].
  apply mapM_length in Hnames. destruct names, selected; simpl in *; congruence.
Qed.

(** The events of one outside event, on a page of the script. *)
Lemma step_events (h : host) (i : input) :
  page_ok h ->
  match i with
  | Click _ =>
      snd (step h i) = []
      \/ snd (step h i) = [EvMsgprint (VStr "Please select at least one lead.")]
      \/ snd (step h i) = [EvPrompt prompt_fields "Create Lead Segment" "Create"]
  | Check _ => snd (step h i) = []
  | Submit _ =>
      snd (step h i) = [] \/ snd (step h i) = [EvRejected]
      \/ snd (step h i) = [EvError TypeError]
      \/ exists args, snd (step h i) = [EvCall create_lead_segment args]
                      /\ well_formed_call (create_lead_segment, args)
  | Respond _ _ =>
      (snd (step h i) = [] \/ snd (step h i) = [EvError TypeError]
       \/ exists segmentname,
            snd (step h i) = [EvMsgprint (success_notice segmentname); EvRefresh])
      /\ refreshes (lv (fst (step h i)))
         = refreshes (lv h) + refresh_count (snd (step h i))
  end.
Proof.
  intros Hok. pose proof Hok as [Hm Hd Hi]. destruct i as [label|items|form|n r].
  - rewrite (step_click h label Hok). destruct ("Create Segment" =? label); auto.
    rewrite exec_create_segment. destruct (checked_items (lv h)); auto.
  - reflexivity.
  - destruct (dialogs h) as [|d rest] eqn:Hdlg.
    + left. unfold step. now rewrite Hdlg.
    + inversion Hd as [|d' rest' [selected [Hsel Hours]] Hrest]. subst.
      rewrite (step_submit h selected rest form Hdlg).
      destruct (blank (lookup form "segmentname")); auto.
      destruct (call_args selected (VObj form)) as [args|[]] eqn:Hargs; auto.
      do 3 right. exists args. repeat split.
      exact (call_args_shape selected (VObj form) args Hsel Hargs).
  - cbn [step]. destruct (nth_error (inflight h) n) as [cb|] eqn:Hn.
    + assert (cb = callback) as ->.
      { rewrite Forall_forall in Hi. apply Hi. eapply nth_error_In, Hn. }
      rewrite exec_callback. destruct (get_prop (VObj r) "exc") as [exc|[]].
      * destruct (truthy exc); [simpl; auto|].
        destruct (message_segmentname (VObj r)) as [seg|[]]; simpl; [|auto].
        split; [eauto | now rewrite Nat.add_1_r].
      * simpl; auto.
    + simpl; auto.
Qed.

Lemma step_calls (h : host) (i : input) :
  page_ok h ->
  Forall well_formed_call (calls (snd (step h i)))
  /\ List.length (calls (snd (step h i))) <= submits [i].
Proof.
  intros Hok. pose proof (step_events h i Hok) as H.
  destruct i as [label|items|form|n r].
  - destruct H as [-> | [-> | ->]]; unfold submits; simpl; split; auto.
  - rewrite H; unfold submits; simpl; split; auto.
  - destruct H as [-> | [-> | [-> | [args [-> Hwf]]]]]; unfold submits; simpl; split; auto.
  - destruct H as [[-> | [-> | [seg ->]]] _]; unfold submits; simpl; split; auto.
Qed.

Lemma submits_cons (i : input) (ins : list input) :
  submits (i :: ins) = submits [i] + submits ins.
Proof. unfold submits. simpl. now destruct i. Qed.

Lemma responses_cons (i : input) (ins : list input) :
  responses (i :: ins) = responses [i] + responses ins.
Proof. unfold responses. simpl. now destruct i. Qed.

Lemma refresh_count_app (a b : list event) :
  refresh_count (a ++ b) = refresh_count a + refresh_count b.
Proof. unfold refresh_count. now rewrite filter_app, length_app. Qed.

Lemma run_calls (ins : list input) (h : host) :
  page_ok h ->
  Forall well_formed_call (calls (snd (run h ins)))
  /\ List.length (calls (snd (run h ins))) <= submits ins.
Proof.
  revert h; induction ins as [|i rest IH]; intros h Hok.
  - simpl. split; [constructor | apply Nat.le_0_l].
  - pose proof (step_calls h i Hok) as [Hwf Hlen].
    pose proof (page_ok_step h i Hok) as Hok1.
    rewrite submits_cons. cbn [run].
    destruct (step h i) as [h1 evs1]. cbn [fst snd] in *.
    destruct (IH h1 Hok1) as [Hwf' Hlen'].
    destruct (run h1 rest) as [h2 evs2]. cbn [fst snd] in *.
    rewrite calls_app, length_app. split; [now apply Forall_app | lia].
Qed.

(** X1.  Over a whole session, whatever the user does and whatever the
    server answers, every remote call the page issues is a call of
    [create_lead_segment] with the three arguments [segmentname],
    [lead_names], [description], and its [lead_names] is never an empty
    list: the guard on the selection holds for every call that leaves. *)
Theorem every_call_well_formed (v : listview) (ins : list input) :
  Forall well_formed_call (calls (snd (run (boot v) ins))).
Proof. apply run_calls, page_ok_boot. Qed.

(** X2.  The script sends nothing on its own: picking the action, changing
    the check boxes and receiving a response issue no remote call, and a
    submission issues one at most.  So a session has no more calls than
    submissions; in particular a failed call is never retried. *)
Theorem calls_bounded_by_submits (v : listview) (ins : list input) :
  List.length (calls (snd (run (boot v) ins))) <= submits ins.
Proof. apply run_calls, page_ok_boot. Qed.

(** ** Reloads of the list view *)

Lemma step_refreshes (h : host) (i : input) :
  page_ok h ->
  refreshes (lv (fst (step h i)))
  = refreshes (lv h) + refresh_count (snd (step h i))
  /\ refresh_count (snd (step h i)) <= responses [i].
Proof.
  intros Hok. pose proof Hok as [Hm Hd Hi]. destruct i as [label|items|form|n r].
  - rewrite (step_click h label Hok). destruct ("Create Segment" =? label).
    + rewrite exec_create_segment.
      destruct (checked_items (lv h)); simpl; now rewrite Nat.add_0_r.
    + simpl. now rewrite Nat.add_0_r.
  - simpl. now rewrite Nat.add_0_r.
  - destruct (dialogs h) as [|d rest] eqn:Hdlg.
    + unfold step. rewrite Hdlg. simpl. now rewrite Nat.add_0_r.
    + inversion Hd as [|d' rest' [selected [Hsel Hours]] Hrest]. subst.
      rewrite (step_submit h selected rest form Hdlg).
      destruct (blank (lookup form "segmentname"));
        [|destruct (call_args selected (VObj form))];
        simpl; now rewrite Nat.add_0_r.
  - pose proof (step_events h (Respond n r) Hok) as [Hevs Hcount].
    split; [exact Hcount|].
    destruct Hevs as [-> | [-> | [seg ->]]]; unfold responses, refresh_count; simpl; lia.
Qed.

Lemma run_refreshes (ins : list input) (h : host) :
  page_ok h ->
  refreshes (lv (fst (run h ins)))
  = refreshes (lv h) + refresh_count (snd (run h ins))
  /\ refresh_count (snd (run h ins)) <= responses ins.
Proof.
  revert h; induction ins as [|i rest IH]; intros h Hok.
  - simpl. split; [now rewrite Nat.add_0_r | apply Nat.le_0_l].
  - pose proof (step_refreshes h i Hok) as [Hstep Hle].
    pose proof (page_ok_step h i Hok) as Hok1.
    rewrite responses_cons. cbn [run].
    destruct (step h i) as [h1 evs1]. cbn [fst snd] in *.
    destruct (IH h1 Hok1) as [Hrun Hle'].
    destruct (run h1 rest) as [h2 evs2]. cbn [fst snd] in *.
    rewrite refresh_count_app. split; lia.
Qed.

(** X3.  The list view is reloaded by the response callback alone: over a
    session, the number of reloads of the view grows by the number of
    refreshes the page performs, and there is at most one of them per
    response delivered.  Picking the action, changing the check boxes and
    submitting the prompt never reload the view. *)
Theorem refreshes_bounded_by_responses (v : listview) (ins : list input) :
  refreshes (lv (session v ins))
  = refreshes v + refresh_count (snd (run (boot v) ins))
  /\ refresh_count (snd (run (boot v) ins)) <= responses ins.
Proof. apply (run_refreshes ins (boot v)), page_ok_boot. Qed.

(** ** Edges of the prompt *)

Lemma mapM_names_null (selected : list value) :
  existsb nullish selected = true ->
  mapM (fun lead => get_prop lead "name") selected = Err TypeError.
Proof.
  induction selected as [|lead rest IH]; simpl; [discriminate|].
  intros H. destruct (nullish lead) eqn:Hlead.
  - destruct lead; try discriminate Hlead; reflexivity.
  - rewrite (get_prop_name lead Hlead). cbn [bind]. now rewrite (IH H).
Qed.

(** X4.  The names of the rows are read when the prompt is submitted, not
    when the action is picked: if a checked row is [undefined] or [null],
    the prompt still opens and accepts the form, and reading the row's
    [name] then throws.  No remote call is issued, nothing is shown, and the prompt is
    closed all the same. *)
Theorem null_row_throws_on_submit
        (v : listview) (ins : list input) (form : list (string * value)) :
  existsb nullish (checked_items (lv (session v ins))) = true ->
  blank (lookup form "segmentname") = false ->
  snd (run (session v ins) [Click "Create Segment"; Submit form])
  = [EvPrompt prompt_fields "Create Lead Segment" "Create"; EvError TypeError]
  /\ same_page (session v ins)
               (fst (run (session v ins) [Click "Create Segment"; Submit form])).
Proof.
  intros Hnull Hname. pose proof (page_ok_session v ins) as Hok.
  assert (checked_items (lv (session v ins)) <> []) as Hsel.
  { intros E. rewrite E in Hnull. discriminate Hnull. }
  assert (call_args (checked_items (lv (session v ins))) (VObj form)
          = Err TypeError) as Hargs.
  { unfold call_args. cbn [get_prop bind]. now rewrite (mapM_names_null _ Hnull). }
  split.
  - change [Click "Create Segment"; Submit form]
      with (Click "Create Segment" :: map Check [] ++ [Submit form]).
    now rewrite (click_then_submit _ [] form Hok Hsel), Hname, Hargs.
  - cbn [run]. rewrite (step_click _ _ Hok).
    rewrite String.eqb_refl, exec_create_segment.
    destruct (checked_items (lv (session v ins))) as [|lead others] eqn:Esel;
      [congruence|].
    set (h1 := open_dialog _ (session v ins)).
    rewrite (step_submit h1 (lead :: others) (dialogs (session v ins)) form eq_refl).
    rewrite Hname, Hargs. now repeat split.
Qed.

Lemma null_row_throws_on_submit_witness :
  existsb nullish (checked_items (lv (session null_row_checked []))) = true
  /\ snd (run (session null_row_checked [])
              [Click "Create Segment"; Submit seg1_form])
     = [EvPrompt prompt_fields "Create Lead Segment" "Create"; EvError TypeError]
  /\ same_page (session null_row_checked [])
               (fst (run (session null_row_checked [])
                         [Click "Create Segment"; Submit seg1_form])).
Proof.
  split; [reflexivity|].
  apply (null_row_throws_on_submit null_row_checked [] seg1_form); reflexivity.
Defined.

(** X6.  With at least one row checked, picking the action opens the
    prompt and does nothing else: the prompt (two fields, titled
    "Create Lead Segment", primary button "Create") comes on top of the
    open ones, nothing is sent or shown before it is submitted, and the
    list view is untouched. *)
Theorem selection_opens_prompt_only (v : listview) (ins : list input) :
  checked_items (lv (session v ins)) <> [] ->
  snd (step (session v ins) (Click "Create Segment"))
  = [EvPrompt prompt_fields "Create Lead Segment" "Create"]
  /\ List.length (dialogs (fst (step (session v ins) (Click "Create Segment"))))
     = S (List.length (dialogs (session v ins)))
  /\ inflight (fst (step (session v ins) (Click "Create Segment")))
     = inflight (session v ins)
  /\ lv (fst (step (session v ins) (Click "Create Segment")))
     = lv (session v ins).
Proof.
  intros Hsel. rewrite (step_click _ _ (page_ok_session v ins)).
  rewrite String.eqb_refl, exec_create_segment.
  destruct (checked_items (lv (session v ins))); [congruence|]. now repeat split.
Qed.

Lemma selection_opens_prompt_only_witness :
  checked_items (lv (session two_checked [])) <> []
  /\ snd (step (session two_checked []) (Click "Create Segment"))
     = [EvPrompt prompt_fields "Create Lead Segment" "Create"]
  /\ List.length
       (dialogs (fst (step (session two_checked []) (Click "Create Segment"))))
     = S (List.length (dialogs (session two_checked [])))
  /\ inflight (fst (step (session two_checked []) (Click "Create Segment")))
     = inflight (session two_checked [])
  /\ lv (fst (step (session two_checked []) (Click "Create Segment")))
     = lv (session two_checked []).
Proof.
  split; [discriminate|].
  apply (selection_opens_prompt_only two_checked []). discriminate.
Defined.

(** ** A whole interaction *)

Lemma nth_error_last {A : Type} (l : list A) (a : A) :
  nth_error (l ++ [a]) (List.length l) = Some a.
Proof. induction l as [|b l IH]; simpl; auto. Qed.

Lemma remove_nth_last {A : Type} (l : list A) (a : A) :
  remove_nth (List.length l) (l ++ [a]) = l.
Proof. induction l as [|b l IH]; simpl; [reflexivity | now rewrite IH]. Qed.

Lemma round_trip_page (h : host) (form r : list (string * value)) (name : string) :
  page_ok h ->
  checked_items (lv h) <> [] ->
  existsb nullish (checked_items (lv h)) = false ->
  blank (lookup form "segmentname") = false ->
  truthy (lookup r "exc") = false ->
  message_segmentname (VObj r) = Ok (VStr name) ->
  run h [Click "Create Segment"; Submit form;
         Respond (List.length (inflight h)) r]
  = (reload h,
     [EvPrompt prompt_fields "Create Lead Segment" "Create";
      EvCall create_lead_segment
             (VObj [("segmentname", lookup form "segmentname");
                    ("lead_names", VArr (map name_of (checked_items (lv h))));
                    ("description", lookup form "description")]);
      EvMsgprint (success_notice (VStr name));
      EvRefresh]).
Proof.
  intros Hok Hsel Hrows Hname Hexc Hmsg.
  pose proof (call_args_rows (checked_items (lv h)) form Hrows) as Hargs.
  cbn [run]. rewrite (step_click h _ Hok).
  rewrite String.eqb_refl, exec_create_segment.
  destruct (checked_items (lv h)) as [|lead others] eqn:Esel; [congruence|].
  set (h1 := open_dialog _ h).
  rewrite (step_submit h1 (lead :: others) (dialogs h) form eq_refl).
  rewrite Hname, Hargs.
  set (h2 := send callback (close_dialog h1)).
  assert (step h2 (Respond (List.length (inflight h)) r)
          = (reload h, [EvMsgprint (success_notice (VStr name)); EvRefresh]))
    as ->; [|reflexivity].
  unfold step, h2, h1. cbn [send close_dialog open_dialog inflight].
  rewrite nth_error_last, exec_callback. cbn [get_prop].
  rewrite Hexc, Hmsg. unfold reload, answered. cbn.
  rewrite remove_nth_last. now destruct h.
Qed.

(** X7.  A whole interaction leaves the page as it found it.  Rows are
    checked, the action is picked, the prompt is submitted with a segment
    name and the server answers that call with the segment it created: the
    page shows the prompt, sends the call for the checked rows, shows the
    notice "Lead Segment <name> created successfully" and reloads the view.
    After that no prompt is left open and no call is left in flight beyond
    those that were there before; only the reload count of the view has
    grown by one. *)
Theorem create_segment_round_trip
        (v : listview) (ins : list input) (form r : list (string * value))
        (name : string) :
  checked_items (lv (session v ins)) <> [] ->
  existsb nullish (checked_items (lv (session v ins))) = false ->
  blank (lookup form "segmentname") = false ->
  truthy (lookup r "exc") = false ->
  message_segmentname (VObj r) = Ok (VStr name) ->
  run (session v ins)
      [Click "Create Segment"; Submit form;
       Respond (List.length (inflight (session v ins))) r]
  = (reload (session v ins),
     [EvPrompt prompt_fields "Create Lead Segment" "Create";
      EvCall "crm_override.crm_override.api.create_lead_segment"
             (VObj [("segmentname", lookup form "segmentname");
                    ("lead_names",
                     VArr (map name_of (checked_items (lv (session v ins)))));
                    ("description", lookup form "description")]);
      EvMsgprint
        (VObj [("title", VStr "Success");
               ("indicator", VStr "green");
               ("message",
                VStr ("Lead Segment " ++ name ++ " created successfully"))]);
      EvRefresh]).
Proof. intros. now apply round_trip_page; [apply page_ok_session|..]. Qed.

Lemma create_segment_round_trip_witness :
  checked_items (lv (session two_checked [])) <> []
  /\ run (session two_checked [])
         [Click "Create Segment"; Submit seg1_form; Respond 0 seg1_response]
     = (reload (session two_checked []),
        [EvPrompt prompt_fields "Create Lead Segment" "Create";
         EvCall "crm_override.crm_override.api.create_lead_segment"
                (VObj [("segmentname", VStr "seg1");
                       ("lead_names",
                        VArr [VStr "CRM-LEAD-2025-00196";
                              VStr "CRM-LEAD-2025-00197"]);
                       ("description", VStr "Test Segment")]);
         EvMsgprint
           (VObj [("title", VStr "Success");
                  ("indicator", VStr "green");
                  ("message", VStr "Lead Segment seg1 created successfully")]);
         EvRefresh]).
Proof.
  split; [discriminate|].
  apply (create_segment_round_trip two_checked [] seg1_form seg1_response "seg1");
    [discriminate | reflexivity..].
Defined.
